(** * The code-object interpretation micro-benchmark

    A shallow embedding of
    [com.oracle.graal.python.benchmarks/python/micro/codeobject-interpretation.py]
    and the properties of its loader ([IS_GRAAL], [get_code], [CODE]) and of
    its entry points ([measure], [__benchmark__]).

    The script is written against the primitives of the Python runtime it
    runs on ([sys.implementation.name], [compile], [dis.dis], [marshal.loads],
    [__graalpython__.compile_cpyc], [exec]).  Those are collected in the
    [Host] interface; the script is embedded once, over any host.  The last
    part of the file gives two concrete hosts for the fragment of Python the
    benchmarked source is written in. *)

From Stdlib Require Import ZArith String Ascii List Lia.
From stdpp Require Import base option list gmap strings pretty.

Open Scope string_scope.
Open Scope Z_scope.

(** ** Python values and exceptions *)

(** The exceptions the script or the benchmarked source can meet. *)
Inductive exn : Type :=
  | SyntaxError
  | ValueError
  | EOFError
  | TypeError
  | NameError
  | AttributeError
  | ModuleNotFoundError
  | SystemError.

(** The objects that end up in a namespace of the script.  [code] is the
    host's representation of a code object. *)
Inductive value (code : Type) : Type :=
  | VNone
  | VBool (b : bool)
  | VInt (z : Z)
  | VStr (s : string)
  | VCode (c : code)
  | VModule (name : string)
  | VBuiltin (name : string)
  | VFunction (name : string).

Arguments VNone {code}.
Arguments VBool {code} b.
Arguments VInt {code} z.
Arguments VStr {code} s.
Arguments VCode {code} c.
Arguments VModule {code} name.
Arguments VBuiltin {code} name.
Arguments VFunction {code} name.

(** What a running code object can read and write: the module globals, the
    local namespace it was started with, and standard output. *)
Record env (code : Type) : Type := Env {
  e_globals : gmap string (value code);
  e_locals : gmap string (value code);
  e_stdout : list string
}.

Arguments Env {code} e_globals e_locals e_stdout.
Arguments e_globals {code} e.
Arguments e_locals {code} e.
Arguments e_stdout {code} e.

(** ** The host runtime *)

Class Host (code : Type) : Type := {
  (** [sys.implementation.name] *)
  implementation_name : string;
  (** [compile(source, filename, mode)] *)
  compile : string -> string -> string -> exn + code;
  (** the text [dis.dis(c)] prints *)
  dis_dis : code -> string;
  (** [__graalpython__.compile_cpyc(filename, source)] *)
  compile_cpyc : string -> string -> exn + list Z;
  (** [marshal.loads(blob)] *)
  marshal_loads : list Z -> exn + code;
  (** the builtins namespace *)
  builtins : gmap string (value code);
  (** running a code object; [Some e] when it raises [e] *)
  exec_code : code -> env code -> option exn * env code
}.

(** ** The script *)

Section Script.
Context {code : Type} `{H : Host code}.

(** The state of the process: what was printed, the module's globals,
    and the list of code objects handed to [exec] so far (in order). *)
Record world : Type := World {
  stdout : list string;
  globals : gmap string (value code);
  exec_log : list code
}.

(** Statements either finish with a result or raise; both leave a world. *)
Definition M (A : Type) : Type := world -> (exn + A) * world.

Definition ret {A} (a : A) : M A := fun w => (inr a, w).

Definition raise {A} (e : exn) : M A := fun w => (inl e, w).

Definition bind {A B} (m : M A) (k : A -> M B) : M B :=
  fun w =>
    match m w with
    | (inr a, w') => k a w'
    | (inl e, w') => (inl e, w')
    end.

Definition lift {A} (r : exn + A) : M A :=
  match r with
  | inr a => ret a
  | inl e => raise e
  end.

Notation "'let*' x := m 'in' k" := (bind m (fun x => k))
  (at level 10, x binder, m at level 200, k at level 200,
   format "'[v' 'let*'  x  :=  m  'in' '/' k ']'").

(** [print]: one chunk of text on standard output. *)
Definition write_stdout (s : string) : M unit :=
  fun w => (inr tt, World (stdout w ++ [s]) (globals w) (exec_log w)).

(** Assignment at module level. *)
Definition store_global (x : string) (v : value code) : M unit :=
  fun w => (inr tt, World (stdout w) (<[x := v]> (globals w)) (exec_log w)).

(** Reading a global name from inside a function: the module globals,
    then the builtins, else [NameError]. *)
Definition load_global (x : string) : M (value code) :=
  fun w =>
    match globals w !! x with
    | Some v => (inr v, w)
    | None =>
        match builtins !! x with
        | Some v => (inr v, w)
        | None => (inl NameError, w)
        end
    end.

(** Running code object [c] with local namespace [locals]; the run is
    recorded in [exec_log]. *)
Definition run_code (c : code) (locals : gmap string (value code))
  : M (gmap string (value code)) :=
  fun w =>
    let '(r, e) := exec_code c (Env (globals w) locals (stdout w)) in
    let w' := World (e_stdout e) (e_globals e) (exec_log w ++ [c]) in
    match r with
    | Some x => (inl x, w')
    | None => (inr (e_locals e), w')
    end.

(** The builtin [exec(obj)] called with one argument: [obj] is a code
    object, or a string that is compiled first. *)
Definition py_exec (obj : value code) (locals : gmap string (value code))
  : M (gmap string (value code)) :=
  match obj with
  | VCode c => run_code c locals
  | VStr s =>
      let* c := lift (compile s "<string>" "exec") in
      run_code c locals
  | _ => raise TypeError
  end.

(** [range(num)] *)
Definition range (num : Z) : list Z := seqZ 0 num.

(** [for x in xs: body], threading the frame's local namespace. *)
Fixpoint for_each {A S : Type} (xs : list A) (body : A -> S -> M S) (s : S)
  : M S :=
  match xs with
  | [] => ret s
  | x :: xs' => let* s' := body x s in for_each xs' body s'
  end.

(** [IS_GRAAL = sys.implementation.name == "graalpython"] *)
Definition IS_GRAAL : bool := String.eqb implementation_name "graalpython".

(** [lambda n,s: marshal.loads(__graalpython__.compile_cpyc(n,s))] *)
Definition get_code_graal (n s : string) : M code :=
  let* blob := lift (compile_cpyc n s) in
  lift (marshal_loads blob).

(** [def get_code(n,s)] of the [else] branch.  [import dis] binds the
    standard-library module in the function's frame; its [dis] function
    is the host's [dis_dis]. *)
Definition get_code_cpython (n s : string) : M code :=
  let* c := lift (compile s n "exec") in
  let* _ := write_stdout (dis_dis c) in
  ret c.

(** The function the name [get_code] is bound to. *)
Definition get_code (n s : string) : M code :=
  if IS_GRAAL then get_code_graal n s else get_code_cpython n s.

Definition LF : string := String (ascii_of_nat 10) EmptyString.

(** The triple-quoted literal passed to [get_code] at module level. *)
Definition bench_source : string :=
  LF ++ "import sys" ++ LF ++ "# def foo():" ++ LF ++ "#   pass" ++ LF
     ++ "len(sys.__name__)" ++ LF.

(** [def measure(num)].  Each iteration reads the global [CODE] and
    calls [exec] on it.  [exec] with one argument runs the code in the
    namespace of the calling frame: a dictionary kept with the frame, into
    which the frame's variables [num] and [i] are written anew before
    every run, and which keeps whatever earlier runs stored under other
    names.  The names [range] and [exec] are taken to be the builtins:
    the module does not rebind them, and the theorems about [measure] are
    stated for module globals that do not shadow them. *)
Definition measure (num : Z) : M (value code) :=
  let* _ := for_each (range num)
       (fun i locals =>
          let* c := load_global "CODE" in
          py_exec c (<["i" := VInt i]> (<["num" := VInt num]> locals)))
       {["num" := VInt num]} in
  ret VNone.

(** [def __benchmark__(num=5)]; [None] is the call without argument.
    The result of [measure] is dropped and [None] returned. *)
Definition __benchmark__ (num : option Z) : M (value code) :=
  let* _ := measure (default 5 num) in
  ret VNone.

(** The module body, top to bottom. *)
Definition module_body : M unit :=
  let* _ := store_global "sys" (VModule "sys") in
  let* _ := store_global "marshal" (VModule "marshal") in
  let* _ := store_global "IS_GRAAL" (VBool IS_GRAAL) in
  let* _ := store_global "get_code"
       (VFunction (if IS_GRAAL then "<lambda>" else "get_code")) in
  let* c := get_code "bench.py" bench_source in
  let* _ := store_global "CODE" (VCode c) in
  let* _ := store_global "measure" (VFunction "measure") in
  store_global "__benchmark__" (VFunction "__benchmark__").

(** The world a fresh process starts the module in. *)
Definition initial_world : world := World [] ∅ [].

End Script.

(** The notation of the section, for the rest of the file. *)
Notation "'let*' x := m 'in' k" := (bind m (fun x => k))
  (at level 10, x binder, m at level 200, k at level 200,
   format "'[v' 'let*'  x  :=  m  'in' '/' k ']'").

(** ** Running the stored code *)

Section Safety.
Context {code : Type} `{H : Host code}.

(** The run of [c] that iteration [i] of [measure num] makes from the
    environment [e] the previous run (or the entry of the call) left. *)
Definition exec_at (c : code) (num i : Z) (e : env code)
  : option exn * env code :=
  exec_code c
    (Env (e_globals e)
         (<["i" := VInt i]> (<["num" := VInt num]> (e_locals e)))
         (e_stdout e)).

(** What the spec asks of [measure]: the stored code "executed exactly
    [num] times, sequentially".  This is that sequence, written without
    the script: [c] run once for every [i] of [idx], in order, each run
    starting where the one before ended, up to the first run that raises.
    The result is the exception if one was raised, the environment
    reached and the number of runs made.  The theorems compare the loop
    of [measure] with it. *)
Fixpoint runs_in_sequence (c : code) (num : Z) (idx : list Z) (e : env code)
  : option exn * env code * nat :=
  match idx with
  | [] => (None, e, 0%nat)
  | i :: idx' =>
      match exec_at c num i e with
      | (None, e') =>
          let '(r, ef, k) := runs_in_sequence c num idx' e' in (r, ef, S k)
      | (Some x, e') => (Some x, e', 1%nat)
      end
  end.

(** The environment a call [measure num] starts in. *)
Definition entry (num : Z) (w : world) : env code :=
  Env (globals w) {["num" := VInt num]} (stdout w).

(** The world after runs that ended in environment [e] and added the
    runs [cs] to the log of [w]. *)
Definition world_after (w : world) (e : env code) (cs : list code) : world :=
  World (e_stdout e) (e_globals e) (exec_log w ++ cs).

(** What [measure num] needs from the code object stored in [CODE]: an
    invariant [Inv] of the environments between runs, under which [CODE]
    is bound to the object, the module globals shadow neither [range] nor
    [exec], and every run the loop makes ([i] from [0] to [num - 1])
    keeps the invariant without raising; the invariant also holds when a
    new call starts with a fresh namespace. *)
Record runs_safely (c : code) (num : Z) (Inv : env code -> Prop) : Prop := {
  safe_code : forall e, Inv e -> e_globals e !! "CODE" = Some (VCode c);
  safe_builtins : forall e,
    Inv e -> e_globals e !! "range" = None /\ e_globals e !! "exec" = None;
  safe_enter : forall e,
    Inv e -> Inv (Env (e_globals e) {["num" := VInt num]} (e_stdout e));
  safe_exec : forall e i,
    0 <= i < num ->
    Inv e -> exists e', exec_at c num i e = (None, e') /\ Inv e'
}.

(** [Inv] holds of world [w] seen from some frame. *)
Definition ready (Inv : env code -> Prop) (w : world) : Prop :=
  exists locals, Inv (Env (globals w) locals (stdout w)).

(** The body of the loop of [measure num]. *)
Definition measure_body (num i : Z) (locals : gmap string (value code))
  : M (gmap string (value code)) :=
  let* c := load_global "CODE" in
  py_exec c (<["i" := VInt i]> (<["num" := VInt num]> locals)).

End Safety.

(** ** A host for the fragment of Python the benchmark is written in

    The runtime itself is not part of the script.  This module gives the
    primitives of [Host] for the fragment the benchmarked source uses:
    [import] of a plain module name and expression statements built from
    names, attribute access and calls, compiled to a stack bytecode. *)

Module PyFragment.

#[warnings="-register-all"]
Inductive expr : Type :=
  | EName (x : string)
  | EAttr (e : expr) (a : string)
  | ECall (f : expr) (args : list expr).

Inductive stmt : Type :=
  | SImport (m : string)
  | SExpr (e : expr).

Inductive const : Type :=
  | CNone
  | CInt (z : Z).

Inductive instr : Type :=
  | POP_TOP
  | RETURN_VALUE
  | STORE_NAME (x : string)
  | LOAD_CONST (k : const)
  | LOAD_NAME (x : string)
  | LOAD_ATTR (a : string)
  | IMPORT_NAME (m : string)
  | CALL_FUNCTION (argc : nat).

(** A code object: the file name it was compiled under and its
    instructions. *)
Record code_object : Type := Code {
  co_filename : string;
  co_code : list instr
}.

(** *** Lexing and parsing *)

Inductive token : Type :=
  | TName (x : string)
  | TDot
  | TLParen
  | TRParen
  | TComma
  | TBad.

Definition in_range (lo hi : nat) (c : ascii) : bool :=
  let n := nat_of_ascii c in ((lo <=? n) && (n <=? hi))%nat.

Definition is_digit (c : ascii) : bool := in_range 48 57 c.

Definition is_name_char (c : ascii) : bool :=
  in_range 65 90 c || in_range 97 122 c || is_digit c
  || Ascii.eqb c "_"%char.

Definition is_blank (c : ascii) : bool :=
  Ascii.eqb c " "%char || in_range 9 9 c || in_range 13 13 c.

(** The token for a maximal run of name characters, collected in
    reverse; a run starting with a digit is not a name. *)
Definition flush (cur : list ascii) : list token :=
  match rev cur with
  | [] => []
  | c :: cs =>
      if is_digit c then [TBad]
      else [TName (string_of_list_ascii (c :: cs))]
  end.

Definition punct (c : ascii) : token :=
  if Ascii.eqb c "."%char then TDot
  else if Ascii.eqb c "("%char then TLParen
  else if Ascii.eqb c ")"%char then TRParen
  else if Ascii.eqb c ","%char then TComma
  else TBad.

(** The tokens of one line; [#] starts a comment. *)
Fixpoint lex (cs cur : list ascii) : list token :=
  match cs with
  | [] => flush cur
  | c :: cs' =>
      if is_name_char c then lex cs' (c :: cur)
      else if Ascii.eqb c "#"%char then flush cur
      else if is_blank c then flush cur ++ lex cs' []
      else flush cur ++ punct c :: lex cs' []
  end.

Fixpoint split_lines (cs cur : list ascii) : list (list ascii) :=
  match cs with
  | [] => [rev cur]
  | c :: cs' =>
      if in_range 10 10 c then rev cur :: split_lines cs' []
      else split_lines cs' (c :: cur)
  end.

Definition keywords : list string :=
  ["False"; "None"; "True"; "and"; "as"; "assert"; "async"; "await";
   "break"; "class"; "continue"; "def"; "del"; "elif"; "else"; "except";
   "finally"; "for"; "from"; "global"; "if"; "import"; "in"; "is";
   "lambda"; "nonlocal"; "not"; "or"; "pass"; "raise"; "return"; "try";
   "while"; "with"; "yield"].

Definition is_keyword (x : string) : bool :=
  existsb (String.eqb x) keywords.

(** [NAME trailer*], a trailer being [.NAME] or a parenthesised,
    comma-separated argument list. *)
Fixpoint parse_expr (fuel : nat) (ts : list token)
  : option (expr * list token) :=
  match fuel with
  | O => None
  | S fuel' =>
      match ts with
      | TName x :: ts' =>
          if is_keyword x then None
          else parse_trailers fuel' (EName x) ts'
      | _ => None
      end
  end
with parse_trailers (fuel : nat) (e : expr) (ts : list token)
  : option (expr * list token) :=
  match fuel with
  | O => None
  | S fuel' =>
      match ts with
      | TDot :: TName a :: ts' =>
          if is_keyword a then None
          else parse_trailers fuel' (EAttr e a) ts'
      | TLParen :: TRParen :: ts' => parse_trailers fuel' (ECall e []) ts'
      | TLParen :: ts' =>
          match parse_args fuel' ts' with
          | Some (args, ts'') => parse_trailers fuel' (ECall e args) ts''
          | None => None
          end
      | _ => Some (e, ts)
      end
  end
with parse_args (fuel : nat) (ts : list token)
  : option (list expr * list token) :=
  match fuel with
  | O => None
  | S fuel' =>
      match parse_expr fuel' ts with
      | Some (a, TRParen :: ts') => Some ([a], ts')
      | Some (a, TComma :: TRParen :: ts') => Some ([a], ts')
      | Some (a, TComma :: ts') =>
          match parse_args fuel' ts' with
          | Some (args, ts'') => Some (a :: args, ts'')
          | None => None
          end
      | _ => None
      end
  end.

(** One logical line: nothing, an import, or an expression statement.
    A statement that does not start in the first column is an
    unexpected indent. *)
Definition parse_line (cs : list ascii) : exn + option stmt :=
  match lex cs [] with
  | [] => inr None
  | ts =>
      if match cs with c :: _ => is_blank c | [] => false end
      then inl SyntaxError
      else
        match ts with
        | [TName "import"; TName m] =>
            if is_keyword m then inl SyntaxError
            else inr (Some (SImport m))
        | _ =>
            match parse_expr (2 * length ts + 2) ts with
            | Some (e, []) => inr (Some (SExpr e))
            | _ => inl SyntaxError
            end
        end
  end.

Fixpoint parse_lines (ls : list (list ascii)) : exn + list stmt :=
  match ls with
  | [] => inr []
  | l :: ls' =>
      match parse_line l with
      | inl e => inl e
      | inr o =>
          match parse_lines ls' with
          | inl e => inl e
          | inr ss => inr (from_option (fun s => s :: ss) ss o)
          end
      end
  end.

Definition parse (source : string) : exn + list stmt :=
  parse_lines (split_lines (list_ascii_of_string source) []).

(** *** Compiling to bytecode *)

Fixpoint compile_expr (e : expr) : list instr :=
  match e with
  | EName x => [LOAD_NAME x]
  | EAttr e' a => compile_expr e' ++ [LOAD_ATTR a]
  | ECall f args =>
      compile_expr f ++ concat (map compile_expr args)
        ++ [CALL_FUNCTION (length args)]
  end.

Definition compile_stmt (s : stmt) : list instr :=
  match s with
  | SImport m =>
      [LOAD_CONST (CInt 0); LOAD_CONST CNone; IMPORT_NAME m; STORE_NAME m]
  | SExpr e => compile_expr e ++ [POP_TOP]
  end.

Definition compile_module (ss : list stmt) : list instr :=
  concat (map compile_stmt ss) ++ [LOAD_CONST CNone; RETURN_VALUE].

(** Modelled from the spec: the host's [compile], which is not part of
    the script.  It "compiles source under the given name as a label, in
    module execution mode" and "fails with a SyntaxError/CompileError if
    source is not syntactically valid".  Only the mode the script uses
    is covered; any other mode string is rejected with the
    [ValueError] of an unknown mode. *)
Definition py_compile (source filename mode : string)
  : exn + code_object :=
  if String.eqb mode "exec" then
    match parse source with
    | inl e => inl e
    | inr ss => inr (Code filename (compile_module ss))
    end
  else inl ValueError.

(** *** Disassembly *)

Definition show_const (k : const) : string :=
  match k with
  | CNone => "None"
  | CInt z => pretty z
  end.

Definition show_instr (i : instr) : string :=
  match i with
  | POP_TOP => "POP_TOP"
  | RETURN_VALUE => "RETURN_VALUE"
  | STORE_NAME x => "STORE_NAME (" ++ x ++ ")"
  | LOAD_CONST k => "LOAD_CONST (" ++ show_const k ++ ")"
  | LOAD_NAME x => "LOAD_NAME (" ++ x ++ ")"
  | LOAD_ATTR a => "LOAD_ATTR (" ++ a ++ ")"
  | IMPORT_NAME m => "IMPORT_NAME (" ++ m ++ ")"
  | CALL_FUNCTION n => "CALL_FUNCTION " ++ pretty n
  end.

(** One line per instruction, with its byte offset. *)
Fixpoint dis_lines (offset : nat) (code : list instr) : list string :=
  match code with
  | [] => []
  | i :: code' =>
      (pretty offset ++ " " ++ show_instr i ++ LF)
        :: dis_lines (offset + 2) code'
  end.

(** Modelled from the spec: the host's [dis.dis], which is not part of
    the script; it "prints a disassembly listing of the resulting
    CompiledCode to standard output". *)
Definition py_dis (c : code_object) : string :=
  String.concat "" (dis_lines 0 (co_code c)).

(** *** Running bytecode *)

Abbreviation val := (value code_object).
Abbreviation namespace := (gmap string (value code_object)).

(** The modules an [import] finds. *)
Definition modules : list string := ["sys"; "marshal"; "dis"; "builtins"].

Definition py_builtins : namespace :=
  {[ "len" := VBuiltin "len"; "print" := VBuiltin "print" ]}.

Definition const_value (k : const) : val :=
  match k with
  | CNone => VNone
  | CInt z => VInt z
  end.

(** Name lookup of module-level code: locals, globals, builtins. *)
Definition lookup_name (x : string) (e : env code_object) : option val :=
  match e_locals e !! x with
  | Some v => Some v
  | None =>
      match e_globals e !! x with
      | Some v => Some v
      | None => py_builtins !! x
      end
  end.

Definition getattr (obj : val) (a : string) : exn + val :=
  match obj with
  | VModule m =>
      if String.eqb a "__name__" then inr (VStr m)
      else if String.eqb m "builtins" then
        from_option inr (inl AttributeError) (py_builtins !! a)
      else inl AttributeError
  | _ => inl AttributeError
  end.

Definition str (v : val) : string :=
  match v with
  | VNone => "None"
  | VBool b => if b then "True" else "False"
  | VInt z => pretty z
  | VStr s => s
  | VCode c => "<code object>"
  | VModule m => "<module '" ++ m ++ "'>"
  | VBuiltin f => "<built-in function " ++ f ++ ">"
  | VFunction f => "<function " ++ f ++ ">"
  end.

Definition call (f : val) (args : list val) (e : env code_object)
  : (exn + val) * env code_object :=
  match f with
  | VBuiltin name =>
      if String.eqb name "len" then
        match args with
        | [VStr s] => (inr (VInt (Z.of_nat (String.length s))), e)
        | _ => (inl TypeError, e)
        end
      else if String.eqb name "print" then
        (inr VNone,
         Env (e_globals e) (e_locals e)
             (e_stdout e ++ [String.concat " " (map str args) ++ LF]))
      else (inl TypeError, e)
  | _ => (inl TypeError, e)
  end.

(** The evaluation loop on a value stack.  Bytecode that underflows
    the stack or runs off its end is a [SystemError]. *)
Fixpoint run (code : list instr) (stack : list val) (e : env code_object)
  : option exn * env code_object :=
  match code with
  | [] => (Some SystemError, e)
  | i :: code' =>
      match i, stack with
      | POP_TOP, _ :: st => run code' st e
      | RETURN_VALUE, _ :: _ => (None, e)
      | STORE_NAME x, v :: st =>
          run code' st
            (Env (e_globals e) (<[x := v]> (e_locals e)) (e_stdout e))
      | LOAD_CONST k, _ => run code' (const_value k :: stack) e
      | LOAD_NAME x, _ =>
          match lookup_name x e with
          | Some v => run code' (v :: stack) e
          | None => (Some NameError, e)
          end
      | LOAD_ATTR a, obj :: st =>
          match getattr obj a with
          | inr v => run code' (v :: st) e
          | inl x => (Some x, e)
          end
      | IMPORT_NAME m, _ :: VInt 0 :: st =>
          if existsb (String.eqb m) modules
          then run code' (VModule m :: st) e
          else (Some ModuleNotFoundError, e)
      | CALL_FUNCTION n, _ =>
          match drop n stack with
          | f :: st =>
              match call f (rev (take n stack)) e with
              | (inr v, e') => run code' (v :: st) e'
              | (inl x, e') => (Some x, e')
              end
          | [] => (Some SystemError, e)
          end
      | _, _ => (Some SystemError, e)
      end
  end.

(** Modelled from the spec: the host's [exec] of a code object, which
    is not part of the script.  The benchmarked source "only computes
    and discards a string length", "a length lookup on a fixed
    attribute"; running it is the evaluation loop above. *)
Definition py_exec_code (c : code_object) (e : env code_object)
  : option exn * env code_object :=
  run (co_code c) [] e.

(** *** Marshalling *)

Definition put_int32 (z : Z) : list Z :=
  [z mod 256; (z / 256) mod 256; (z / 65536) mod 256;
   (z / 16777216) mod 256].

Definition put_str (s : string) : list Z :=
  put_int32 (Z.of_nat (String.length s))
    ++ map (fun c => Z.of_nat (nat_of_ascii c)) (list_ascii_of_string s).

Definition put_instr (i : instr) : list Z :=
  match i with
  | POP_TOP => [1]
  | RETURN_VALUE => [83]
  | STORE_NAME x => 90 :: put_str x
  | LOAD_CONST CNone => [100; 78]
  | LOAD_CONST (CInt z) => 100 :: 105 :: put_int32 z
  | LOAD_NAME x => 101 :: put_str x
  | LOAD_ATTR a => 106 :: put_str a
  | IMPORT_NAME m => 108 :: put_str m
  | CALL_FUNCTION n => 131 :: put_int32 (Z.of_nat n)
  end.

(** [marshal.dumps] of a code object: the type byte [c], the file
    name, the number of instructions, the instructions. *)
Definition marshal_dumps (c : code_object) : list Z :=
  99 :: put_str (co_filename c)
    ++ put_int32 (Z.of_nat (length (co_code c)))
    ++ concat (map put_instr (co_code c)).

(** Readers return what they read and the bytes left; running out of
    bytes is an [EOFError]. *)
Definition get_int32 (bs : list Z) : exn + (Z * list Z) :=
  match bs with
  | b0 :: b1 :: b2 :: b3 :: rest =>
      let u := b0 + 256 * b1 + 65536 * b2 + 16777216 * b3 in
      inr (if u <? 2147483648 then u else u - 4294967296, rest)
  | _ => inl EOFError
  end.

Definition get_size (bs : list Z) : exn + (nat * list Z) :=
  match get_int32 bs with
  | inl e => inl e
  | inr (z, rest) =>
      if z <? 0 then inl ValueError
      else if Z.of_nat (length rest) <? z then inl EOFError
      else inr (Z.to_nat z, rest)
  end.

Definition get_str (bs : list Z) : exn + (string * list Z) :=
  match get_size bs with
  | inl e => inl e
  | inr (n, rest) =>
      inr (string_of_list_ascii
             (map (fun b => ascii_of_nat (Z.to_nat b)) (take n rest)),
           drop n rest)
  end.

Definition with_str (f : string -> instr) (bs : list Z)
  : exn + (instr * list Z) :=
  match get_str bs with
  | inl e => inl e
  | inr (x, rest) => inr (f x, rest)
  end.

Definition get_const (bs : list Z) : exn + (instr * list Z) :=
  match bs with
  | [] => inl EOFError
  | t :: rest =>
      if t =? 78 then inr (LOAD_CONST CNone, rest)
      else if t =? 105 then
        match get_int32 rest with
        | inl e => inl e
        | inr (z, rest') => inr (LOAD_CONST (CInt z), rest')
        end
      else inl ValueError
  end.

Definition get_instr (bs : list Z) : exn + (instr * list Z) :=
  match bs with
  | [] => inl EOFError
  | op :: rest =>
      if op =? 1 then inr (POP_TOP, rest)
      else if op =? 83 then inr (RETURN_VALUE, rest)
      else if op =? 90 then with_str STORE_NAME rest
      else if op =? 100 then get_const rest
      else if op =? 101 then with_str LOAD_NAME rest
      else if op =? 106 then with_str LOAD_ATTR rest
      else if op =? 108 then with_str IMPORT_NAME rest
      else if op =? 131 then
        match get_size rest with
        | inl e => inl e
        | inr (n, rest') => inr (CALL_FUNCTION n, rest')
        end
      else inl ValueError
  end.

Fixpoint get_instrs (n : nat) (bs : list Z) : exn + list instr :=
  match n with
  | O => inr []
  | S n' =>
      match get_instr bs with
      | inl e => inl e
      | inr (i, rest) =>
          match get_instrs n' rest with
          | inl e => inl e
          | inr code => inr (i :: code)
          end
      end
  end.

(** Modelled from the spec: the host's [marshal.loads], which is not
    part of the script.  It "deserializes [the blob] into a
    CompiledCode"; "a binary blob [that] does not match the expected
    internal format" is an error: [EOFError] when the data ends early,
    [ValueError] for a byte that is no known type or operation. *)
Definition py_marshal_loads (bs : list Z) : exn + code_object :=
  match bs with
  | [] => inl EOFError
  | t :: rest =>
      if t =? 99 then
        match get_str rest with
        | inl e => inl e
        | inr (filename, rest') =>
            match get_size rest' with
            | inl e => inl e
            | inr (n, body) =>
                match get_instrs n body with
                | inl e => inl e
                | inr code => inr (Code filename code)
                end
            end
        end
      else inl ValueError
  end.

(** Modelled from the spec: GraalPython's
    [__graalpython__.compile_cpyc], which is not part of the script: the
    "fast compilation primitive that returns a binary-serialized form"
    of the code compiled from the source under the given name. *)
Definition py_compile_cpyc (filename source : string) : exn + list Z :=
  match py_compile source filename "exec" with
  | inl e => inl e
  | inr c => inr (marshal_dumps c)
  end.

(** *** The two runtimes *)

Inductive runtime : Type :=
  | CPython
  | GraalPython.

(** On the reference runtime the name [__graalpython__] is unbound. *)
Definition host_of (r : runtime) : Host code_object :=
  {| implementation_name :=
       match r with CPython => "cpython" | GraalPython => "graalpython" end;
     compile := py_compile;
     dis_dis := py_dis;
     compile_cpyc :=
       match r with
       | CPython => fun _ _ => inl NameError
       | GraalPython => py_compile_cpyc
       end;
     marshal_loads := py_marshal_loads;
     builtins := py_builtins;
     exec_code := py_exec_code |}.

End PyFragment.

(** ** The benchmarked source on the two runtimes *)

Import PyFragment.

(** What [compile] makes of the source passed to [get_code]. *)
Definition sample_code : code_object :=
  Code "bench.py"
    [LOAD_CONST (CInt 0); LOAD_CONST CNone; IMPORT_NAME "sys";
     STORE_NAME "sys"; LOAD_NAME "len"; LOAD_NAME "sys";
     LOAD_ATTR "__name__"; CALL_FUNCTION 1; POP_TOP; LOAD_CONST CNone;
     RETURN_VALUE].

(** The world after the module body has run. *)
Definition loaded (r : runtime) : @world code_object :=
  snd (module_body (H := host_of r) initial_world).

(** The worlds reached from [w] by a series of [__benchmark__] calls. *)
Fixpoint after_calls (r : runtime) (args : list (option Z))
  (w : @world code_object) : @world code_object :=
  match args with
  | [] => w
  | a :: args' => after_calls r args' (snd (__benchmark__ (H := host_of r) a w))
  end.

(** The environments the stored code runs in: [CODE] is bound to it and
    nothing shadows the builtin [len]. *)
Definition sample_inv (e : env code_object) : Prop :=
  e_globals e !! "CODE" = Some (VCode sample_code)
  /\ e_globals e !! "len" = None
  /\ e_locals e !! "len" = None.

(** The invariant of the runs [measure] makes of the stored code:
    [sample_inv], and the module globals shadow neither [range] nor
    [exec]. *)
Definition bench_inv (e : env code_object) : Prop :=
  sample_inv e
  /\ e_globals e !! "range" = None
  /\ e_globals e !! "exec" = None.

(** A code object whose run raises: it reads a name nothing binds. *)
Definition raising_code : code_object :=
  Code "bench.py"
    [LOAD_NAME "missing"; POP_TOP; LOAD_CONST CNone; RETURN_VALUE].

(** A runtime that calls itself [graalpython] but whose [compile_cpyc]
    writes a format its [marshal.loads] does not read: the blob starts
    with a type byte of another serializer. *)
Definition stale_graalpython : Host code_object :=
  {| implementation_name := "graalpython";
     compile := py_compile;
     dis_dis := py_dis;
     compile_cpyc := fun n s =>
       match py_compile_cpyc n s with
       | inr blob => inr (0 :: blob)
       | inl e => inl e
       end;
     marshal_loads := py_marshal_loads;
     builtins := py_builtins;
     exec_code := py_exec_code |}.

(** A runtime whose code objects all behave like a snippet that raises
    [ValueError] when it finds [flag] set and [num] equal to 3, and
    otherwise prints the [num] it sees, then stores [flag = 1] and
    [num = 99] in its namespace. *)
Definition probe_exec (c : code_object) (e : env code_object)
  : option exn * env code_object :=
  match e_locals e !! "flag", e_locals e !! "num" with
  | Some _, Some (VInt 3) => (Some ValueError, e)
  | _, seen =>
      (None,
       Env (e_globals e)
           (<["num" := VInt 99]> (<["flag" := VInt 1]> (e_locals e)))
           (e_stdout e ++ [from_option str "unbound" seen]))
  end.

Definition probe_host : Host code_object :=
  {| implementation_name := "cpython";
     compile := py_compile;
     dis_dis := py_dis;
     compile_cpyc := fun _ _ => inl NameError;
     marshal_loads := py_marshal_loads;
     builtins := py_builtins;
     exec_code := probe_exec |}.

(** ** Properties of the script, over any host *)

Open Scope list_scope.

Section Properties.
Context {code : Type} `{H : Host code}.

Lemma measure_unfold (num : Z) (w : world) :
  measure num w =
    match for_each (range num) (measure_body num) {["num" := VInt num]} w with
    | (inr _, w') => (inr VNone, w')
    | (inl e, w') => (inl e, w')
    end.
Proof. reflexivity. Qed.

Lemma range_nonpos (num : Z) : num <= 0 -> range num = [].
Proof.
  intros Hn. unfold range, seqZ.
  replace (Z.to_nat num) with 0%nat by lia. reflexivity.
Qed.

Lemma range_length (num : Z) : length (range num) = Z.to_nat num.
Proof. unfold range. apply length_seqZ. Qed.

Lemma range_bounds (num : Z) : Forall (fun i => 0 <= i < num) (range num).
Proof. unfold range. apply Forall_seqZ. intros i Hi. lia. Qed.

(** One iteration in an environment where [CODE] is bound to [c] runs [c]
    once, whatever the outcome. *)
Lemma measure_body_run (c : code) (num i : Z) locals (w : world) :
  globals w !! "CODE" = Some (VCode c) ->
  measure_body num i locals w
    = run_code c (<["i" := VInt i]> (<["num" := VInt num]> locals)) w.
Proof.
  intros Hc. unfold measure_body, bind, load_global. rewrite Hc. reflexivity.
Qed.

(** That one run is the run [exec_at] describes. *)
Lemma measure_body_exec_at (c : code) (num i : Z) locals (w : world) :
  globals w !! "CODE" = Some (VCode c) ->
  measure_body num i locals w
    = match exec_at c num i (Env (globals w) locals (stdout w)) with
      | (None, e') => (inr (e_locals e'), world_after w e' [c])
      | (Some x, e') => (inl x, world_after w e' [c])
      end.
Proof.
  intros Hc. rewrite (measure_body_run c) by exact Hc.
  unfold run_code, exec_at. simpl.
  destruct (exec_code c _) as [[x|] e']; reflexivity.
Qed.

Lemma for_each_cons {A S : Type} (x : A) (xs : list A)
  (body : A -> S -> @M code S) (s : S) (w : @world code) :
  for_each (x :: xs) body s w =
    match body x s w with
    | (inr s', w') => for_each xs body s' w'
    | (inl e, w') => (inl e, w')
    end.
Proof. reflexivity. Qed.

(** The loop under an invariant: it makes the runs of [runs_in_sequence], one
    for every element of the range, none raises, and the invariant holds
    at the end. *)
Lemma for_each_safe (c : code) (num : Z) (Inv : env code -> Prop) :
  runs_safely c num Inv ->
  forall (xs : list Z) locals (w : world),
    Forall (fun i => 0 <= i < num) xs ->
    Inv (Env (globals w) locals (stdout w)) ->
    exists ef,
      runs_in_sequence c num xs (Env (globals w) locals (stdout w))
        = (None, ef, length xs)
      /\ for_each xs (measure_body num) locals w
         = (inr (e_locals ef), world_after w ef (repeat c (length xs)))
      /\ Inv ef.
Proof.
  intros Hs xs. induction xs as [|x xs IH]; intros locals w Hxs HI.
  - eexists. split; [reflexivity|]. split; [|exact HI].
    simpl. unfold ret, world_after. simpl. rewrite app_nil_r.
    destruct w; reflexivity.
  - inversion Hxs as [|? ? Hx Hxs']; subst.
    pose proof (safe_code _ _ _ Hs _ HI) as Hc. simpl in Hc.
    destruct (safe_exec _ _ _ Hs _ x Hx HI) as (e1 & He & HI1).
    destruct (IH (e_locals e1) (world_after w e1 [c]) Hxs')
      as (ef & Heach & Hrun & HIf).
    { destruct e1; exact HI1. }
    exists ef. split; [|split; [|exact HIf]].
    + simpl. rewrite He. simpl in Heach.
      replace {| e_globals := e_globals e1; e_locals := e_locals e1;
                 e_stdout := e_stdout e1 |} with e1 in Heach
        by (destruct e1; reflexivity).
      rewrite Heach. reflexivity.
    + rewrite for_each_cons, (measure_body_exec_at c) by exact Hc.
      rewrite He, Hrun. unfold world_after. simpl.
      rewrite <- app_assoc. reflexivity.
Qed.

(** [measure] under an invariant, for any [num]: the world it ends in is
    the one the runs of [runs_in_sequence] lead to. *)
Lemma measure_safe (c : code) (num : Z) (Inv : env code -> Prop) (w : world) :
  runs_safely c num Inv ->
  ready Inv w ->
  exists ef,
    runs_in_sequence c num (range num) (entry num w) = (None, ef, Z.to_nat num)
    /\ measure num w
       = (inr VNone, world_after w ef (repeat c (Z.to_nat num)))
    /\ Inv ef.
Proof.
  intros Hs [l HI].
  pose proof (safe_enter _ _ _ Hs _ HI) as HI0. simpl in HI0.
  destruct (for_each_safe c num Inv Hs (range num) _ w (range_bounds num) HI0)
    as (ef & Heach & Hrun & HIf).
  rewrite range_length in Heach, Hrun.
  exists ef. split; [exact Heach|]. split; [|exact HIf].
  rewrite measure_unfold, Hrun. reflexivity.
Qed.

Lemma ready_world_after (Inv : env code -> Prop) (w : world) (e : env code)
  (cs : list code) :
  Inv e -> ready Inv (world_after w e cs).
Proof. intros HI. exists (e_locals e). destruct e; exact HI. Qed.

(** [__benchmark__] adds nothing to what [measure] does. *)
Lemma benchmark_measure (num : option Z) (w : world) :
  __benchmark__ num w = measure (default 5 num) w.
Proof.
  unfold __benchmark__, bind. rewrite measure_unfold.
  destruct (for_each _ _ _ w) as [[e|l] w']; reflexivity.
Qed.

(** The loop when running [c] keeps [CODE] bound to [c]: the binding
    survives, and every run recorded is one of [c], also when one raises. *)
Lemma for_each_frame (c : code) (num : Z) :
  (forall e r e',
     e_globals e !! "CODE" = Some (VCode c) ->
     exec_code c e = (r, e') ->
     e_globals e' !! "CODE" = Some (VCode c)) ->
  forall (xs : list Z) locals (w : world) r w',
    globals w !! "CODE" = Some (VCode c) ->
    for_each xs (measure_body num) locals w = (r, w') ->
    globals w' !! "CODE" = Some (VCode c)
    /\ exists k, (k <= length xs)%nat /\ exec_log w' = exec_log w ++ repeat c k.
Proof.
  intros Hf xs. induction xs as [|x xs IH]; intros locals w r w' Hc Hrun.
  - simpl in Hrun. inversion Hrun; subst. split; [exact Hc|].
    exists 0%nat. simpl. rewrite app_nil_r. auto.
  - rewrite for_each_cons, (measure_body_exec_at c) in Hrun by exact Hc.
    unfold exec_at in Hrun.
    destruct (exec_code c _) as [o e1] eqn:He.
    pose proof (fun Hg => Hf _ _ _ Hg He) as Hc1. specialize (Hc1 Hc).
    destruct o as [ex|].
    + inversion Hrun; subst. simpl. split; [exact Hc1|].
      exists 1%nat. split; [lia | reflexivity].
    + destruct (fun Hg => IH _ _ _ _ Hg Hrun) as (Hc' & k & Hk & Hlog);
        [exact Hc1|].
      split; [exact Hc'|]. exists (S k). split; [simpl; lia|].
      rewrite Hlog. simpl. rewrite <- app_assoc. reflexivity.
Qed.

(** C1. For a stored code object that runs safely in [measure num] and
    every [num >= 0], [measure num] returns [None] without raising after
    running the stored code exactly [num] times, one run after the other:
    standard output and the module globals are those the [num] runs of
    [runs_in_sequence] (for [i] from [0] to [num - 1], each starting where the
    one before ended) lead to, and the log of runs grows by [num] copies
    of the object.  With [num = 0] the world is untouched. *)
Theorem measure_executes_num_times
  (c : code) (Inv : env code -> Prop) (num : Z) (w : world) :
  runs_safely c num Inv ->
  ready Inv w ->
  0 <= num ->
  exists ef w',
    runs_in_sequence c num (range num) (entry num w) = (None, ef, Z.to_nat num)
    /\ measure num w = (inr VNone, w')
    /\ w' = World (e_stdout ef) (e_globals ef)
              (exec_log w ++ repeat c (Z.to_nat num))
    /\ Z.of_nat (length (exec_log w')) = Z.of_nat (length (exec_log w)) + num
    /\ (num = 0 -> w' = w).
Proof.
  intros Hs Hr Hn.
  destruct (measure_safe c num Inv w Hs Hr) as (ef & Heach & Hm & _).
  exists ef, (world_after w ef (repeat c (Z.to_nat num))).
  split; [exact Heach|]. split; [exact Hm|]. split; [reflexivity|]. split.
  - unfold world_after. simpl. rewrite length_app, repeat_length. lia.
  - intros ->. assert (H0 : measure 0 w = (inr VNone, w)) by reflexivity.
    rewrite H0 in Hm. injection Hm as Hw. symmetry. exact Hw.
Qed.

(** C2. [__benchmark__()] runs the stored code exactly 5 times: it
    returns [None] in the world the five runs of [runs_in_sequence] lead to,
    with five copies of the object added to the log; and
    [__benchmark__(num)] does what [measure(num)] does, result and final
    world alike, for every argument (given or defaulted) and world. *)
Theorem benchmark_delegates_to_measure
  (c : code) (Inv : env code -> Prop) (w : world) :
  runs_safely c 5 Inv ->
  ready Inv w ->
  (exists ef,
     runs_in_sequence c 5 (range 5) (entry 5 w) = (None, ef, 5%nat)
     /\ __benchmark__ None w
        = (inr VNone,
           World (e_stdout ef) (e_globals ef) (exec_log w ++ repeat c 5)))
  /\ (forall (num : Z) (w1 : world),
        __benchmark__ (Some num) w1 = measure num w1)
  /\ (forall w1 : world, __benchmark__ None w1 = measure 5 w1).
Proof.
  intros Hs Hr. split; [|split].
  - destruct (measure_safe c 5 Inv w Hs Hr) as (ef & Heach & Hm & _).
    exists ef. rewrite benchmark_measure. split; [exact Heach | exact Hm].
  - intros num w1. apply benchmark_measure.
  - intros w1. apply benchmark_measure.
Qed.

(** C3. [IS_GRAAL] is true exactly when the runtime's
    [sys.implementation.name] is the string [graalpython]; it is a plain
    boolean computed from that string, with no failing case. *)
Theorem IS_GRAAL_iff : IS_GRAAL = true <-> implementation_name = "graalpython".
Proof. unfold IS_GRAAL. apply String.eqb_eq. Qed.

(** C4. On the fallback path, when [compile] rejects the source with an
    exception, [get_code] raises that exception and the world is left as
    it was: nothing has been printed. *)
Theorem get_code_invalid_source (n s : string) (e : exn) (w : world) :
  IS_GRAAL = false ->
  compile s n "exec" = inl e ->
  get_code n s w = (inl e, w).
Proof.
  intros Hg Hc. unfold get_code. rewrite Hg.
  unfold get_code_cpython, bind, lift. rewrite Hc. reflexivity.
Qed.


(** C6. Under GraalPython, when [compile_cpyc(n, s)] returns a blob,
    [get_code n s] is [marshal.loads] of that blob: the code object it
    decodes to, or the exception it raises on a blob it cannot decode;
    the world is not touched. *)
Theorem get_code_graal_unmarshals (n s : string) (blob : list Z) (w : world) :
  IS_GRAAL = true ->
  compile_cpyc n s = inr blob ->
  get_code n s w = (marshal_loads blob, w)
  /\ (forall e, marshal_loads blob = inl e -> get_code n s w = (inl e, w))
  /\ (forall c, marshal_loads blob = inr c -> get_code n s w = (inr c, w)).
Proof.
  intros Hg Hb.
  assert (Hget : get_code n s w = (marshal_loads blob, w)).
  { unfold get_code. rewrite Hg. unfold get_code_graal, bind, lift.
    rewrite Hb. simpl. destruct (marshal_loads blob); reflexivity. }
  split; [exact Hget|]. split; intros x Hx; rewrite Hget, Hx; reflexivity.
Qed.

(** C8. Two calls of [measure num] in a row, for any [num]: both return
    [None], and each makes the same runs of the stored code,
    [Z.to_nat num] of them, the second in the world the first left; the
    first call leaves nothing behind that changes the second. *)
Theorem measure_twice_same_count
  (c : code) (Inv : env code -> Prop) (num : Z) (w : world) :
  runs_safely c num Inv ->
  ready Inv w ->
  exists e1 e2 w1 w2,
    runs_in_sequence c num (range num) (entry num w) = (None, e1, Z.to_nat num)
    /\ measure num w = (inr VNone, w1)
    /\ w1 = World (e_stdout e1) (e_globals e1)
              (exec_log w ++ repeat c (Z.to_nat num))
    /\ runs_in_sequence c num (range num) (entry num w1) = (None, e2, Z.to_nat num)
    /\ measure num w1 = (inr VNone, w2)
    /\ w2 = World (e_stdout e2) (e_globals e2)
              (exec_log w1 ++ repeat c (Z.to_nat num))
    /\ exec_log w1 = exec_log w ++ repeat c (Z.to_nat num)
    /\ exec_log w2 = exec_log w1 ++ repeat c (Z.to_nat num).
Proof.
  intros Hs Hr.
  destruct (measure_safe c num Inv w Hs Hr) as (e1 & Heach1 & Hm1 & HI1).
  set (w1 := world_after w e1 (repeat c (Z.to_nat num))) in *.
  destruct (measure_safe c num Inv w1 Hs (ready_world_after Inv w e1 _ HI1))
    as (e2 & Heach2 & Hm2 & _).
  exists e1, e2, w1, (world_after w1 e2 (repeat c (Z.to_nat num))).
  repeat (split; [first [assumption | reflexivity]|]). reflexivity.
Qed.

(** C9. When running the stored code object [c] does not rebind [CODE],
    no call of [measure] or [__benchmark__] does: whatever the argument
    and the outcome, [CODE] is bound to [c] afterwards, and every run the
    call made was a run of [c]. *)
Theorem CODE_is_never_modified
  (c : code) (arg : option Z) (num : Z) (w : world) :
  (forall e r e',
     e_globals e !! "CODE" = Some (VCode c) ->
     exec_code c e = (r, e') ->
     e_globals e' !! "CODE" = Some (VCode c)) ->
  globals w !! "CODE" = Some (VCode c) ->
  (forall r w',
     measure num w = (r, w') ->
     globals w' !! "CODE" = Some (VCode c)
     /\ exists k, exec_log w' = exec_log w ++ repeat c k)
  /\ (forall r w',
        __benchmark__ arg w = (r, w') ->
        globals w' !! "CODE" = Some (VCode c)
        /\ exists k, exec_log w' = exec_log w ++ repeat c k).
Proof.
  intros Hf Hc.
  assert (Hm : forall n r w',
             measure n w = (r, w') ->
             globals w' !! "CODE" = Some (VCode c)
             /\ exists k, exec_log w' = exec_log w ++ repeat c k).
  { intros n r w' Hrun. rewrite measure_unfold in Hrun.
    destruct (for_each _ _ _ w) as [r0 w0] eqn:Hloop.
    destruct (for_each_frame c n Hf _ _ _ _ _ Hc Hloop) as (Hc' & k & _ & Hlog).
    assert (w0 = w') as <- by (destruct r0; congruence).
    split; [exact Hc' | exists k; exact Hlog]. }
  split; [apply Hm|].
  intros r w'. rewrite benchmark_measure. apply Hm.
Qed.

(** C10. For every negative [num], [measure num] returns [None] without
    raising and without running anything: [range(num)] is empty and the
    world is left exactly as it was. *)
Theorem measure_negative (num : Z) (w : world) :
  num < 0 ->
  range num = [] /\ measure num w = (inr VNone, w).
Proof.
  intros Hn. assert (Hr : range num = []) by (apply range_nonpos; lia).
  split; [exact Hr|]. rewrite measure_unfold, Hr. reflexivity.
Qed.

End Properties.

(** ** Properties of the benchmarked source on the two runtimes *)

Section Sample.

(** *** The host fragment on small inputs *)

Example lex_call :
  lex (list_ascii_of_string "len(sys.__name__)") []
    = [TName "len"; TLParen; TName "sys"; TDot; TName "__name__"; TRParen].
Proof. reflexivity. Qed.

Example parse_bench_source :
  parse bench_source
    = inr [SImport "sys";
           SExpr (ECall (EName "len") [EAttr (EName "sys") "__name__"])].
Proof. vm_compute. reflexivity. Qed.


Example compile_def_colon :
  py_compile "def :" "bench.py" "exec" = inl SyntaxError.
Proof. vm_compute. reflexivity. Qed.

Example compile_unexpected_indent :
  py_compile "  import sys" "bench.py" "exec" = inl SyntaxError.
Proof. vm_compute. reflexivity. Qed.

Example compile_unknown_mode :
  py_compile "import sys" "bench.py" "run" = inl ValueError.
Proof. vm_compute. reflexivity. Qed.

Example dis_sample :
  py_dis sample_code
    = ("0 LOAD_CONST (0)" ++ LF ++ "2 LOAD_CONST (None)" ++ LF
       ++ "4 IMPORT_NAME (sys)" ++ LF ++ "6 STORE_NAME (sys)" ++ LF
       ++ "8 LOAD_NAME (len)" ++ LF ++ "10 LOAD_NAME (sys)" ++ LF
       ++ "12 LOAD_ATTR (__name__)" ++ LF ++ "14 CALL_FUNCTION 1" ++ LF
       ++ "16 POP_TOP" ++ LF ++ "18 LOAD_CONST (None)" ++ LF
       ++ "20 RETURN_VALUE" ++ LF)%string.
Proof. vm_compute. reflexivity. Qed.

Example marshal_round_trip :
  py_marshal_loads (marshal_dumps sample_code) = inr sample_code.
Proof. vm_compute. reflexivity. Qed.

Example marshal_no_data : py_marshal_loads [] = inl EOFError.
Proof. reflexivity. Qed.

Example marshal_unknown_type : py_marshal_loads [63; 0; 0; 0; 0] = inl ValueError.
Proof. reflexivity. Qed.

Example marshal_truncated :
  py_marshal_loads (take 40 (marshal_dumps sample_code)) = inl EOFError.
Proof. vm_compute. reflexivity. Qed.

Example graal_on_cpython :
  get_code_graal (H := host_of CPython) "bench.py" bench_source initial_world
    = (inl NameError, initial_world).
Proof. reflexivity. Qed.

Example benchmark_runs_five_times (r : runtime) :
  let '(res, w) := __benchmark__ (H := host_of r) None (loaded r) in
  res = inr VNone /\ exec_log w = repeat sample_code 5.
Proof. destruct r; vm_compute; split; reflexivity. Qed.

(** A stored code object that raises ends the loop at its first run. *)
Example measure_stops_at_first_raise :
  let bad := Code "bench.py" [LOAD_NAME "missing"; POP_TOP;
                              LOAD_CONST CNone; RETURN_VALUE] in
  let w := World [] {["CODE" := VCode bad]} [] in
  measure (H := host_of CPython) 3 w = (inl NameError, World [] (globals w) [bad]).
Proof. vm_compute. reflexivity. Qed.

(** *** Running the benchmarked source *)

Lemma builtin_len : py_builtins !! "len" = Some (VBuiltin "len").
Proof. reflexivity. Qed.

(** One run of the stored code: it binds [sys] in the local namespace,
    finds the builtin [len], applies it to the string ["sys"] and drops
    the result. *)
Lemma sample_exec (e : env code_object) :
  sample_inv e ->
  py_exec_code sample_code e
    = (None,
       Env (e_globals e) (<["sys" := VModule "sys"]> (e_locals e)) (e_stdout e)).
Proof.
  intros (_ & Hg & Hl). destruct e as [g l out]. simpl in Hg, Hl.
  unfold py_exec_code, sample_code.
  cbn [co_code run const_value existsb modules String.eqb Ascii.eqb
       Bool.eqb orb e_globals e_locals e_stdout].
  unfold lookup_name at 1. cbn [e_globals e_locals].
  rewrite lookup_insert_ne by discriminate.
  rewrite Hl, Hg, builtin_len.
  cbn [run]. unfold lookup_name at 1. cbn [e_locals].
  rewrite lookup_insert_eq.
  reflexivity.
Qed.

(** Writing the frame's [num] and [i] into the namespace keeps
    [sample_inv]. *)
Lemma sample_inv_sync (num i : Z) (e : env code_object) :
  sample_inv e ->
  sample_inv
    (Env (e_globals e)
         (<["i" := VInt i]> (<["num" := VInt num]> (e_locals e)))
         (e_stdout e)).
Proof.
  intros (Hc & Hg & Hl). split; [exact Hc|]. split; [exact Hg|].
  simpl. rewrite !lookup_insert_ne by discriminate. exact Hl.
Qed.

(** The run iteration [i] of [measure num] makes of the stored code. *)
Lemma sample_exec_at (r : runtime) (num i : Z) (e : env code_object) :
  sample_inv e ->
  exec_at (H := host_of r) sample_code num i e
    = (None,
       Env (e_globals e)
           (<["sys" := VModule "sys"]>
              (<["i" := VInt i]> (<["num" := VInt num]> (e_locals e))))
           (e_stdout e)).
Proof.
  intros HI. unfold exec_at.
  pose proof (sample_exec _ (sample_inv_sync num i e HI)) as He.
  destruct r; exact He.
Qed.

Lemma sample_runs_safely (r : runtime) (num : Z) :
  runs_safely (H := host_of r) sample_code num bench_inv.
Proof.
  split.
  - intros e ((Hc & _) & _). exact Hc.
  - intros e (_ & Hn). exact Hn.
  - intros e ((Hc & Hg & _) & Hn). split; [|exact Hn].
    split; [exact Hc|]. split; [exact Hg|].
    simpl. apply lookup_singleton_ne. discriminate.
  - intros e i _ (HI & Hn). eexists. split; [exact (sample_exec_at r num i e HI)|].
    split; [|exact Hn].
    destruct HI as (Hc & Hg & Hl). split; [exact Hc|]. split; [exact Hg|].
    simpl. rewrite !lookup_insert_ne by discriminate. exact Hl.
Qed.

(** Neither a call of a builtin nor the evaluation loop writes the
    module globals. *)
Lemma call_keeps_globals (f : val) (args : list val) (e : env code_object) :
  forall x e', call f args e = (x, e') -> e_globals e' = e_globals e.
Proof.
  intros x e' Hcall. unfold call in Hcall.
  repeat case_match; simplify_eq; reflexivity.
Qed.

Lemma run_keeps_globals (code : list instr) :
  forall stack e r e', run code stack e = (r, e') -> e_globals e' = e_globals e.
Proof.
  induction code as [|i code IH]; intros stack e r e' Hrun;
    cbn [run] in Hrun; [congruence|].
  repeat case_match; simplify_eq; try reflexivity;
    try (apply IH in Hrun; exact Hrun);
    try (eapply call_keeps_globals; eassumption).
  apply IH in Hrun. rewrite Hrun. eapply call_keeps_globals; eassumption.
Qed.

Lemma exec_keeps_CODE (r : runtime) (c : code_object) :
  forall e o e',
    e_globals e !! "CODE" = Some (VCode c) ->
    exec_code (Host := host_of r) c e = (o, e') ->
    e_globals e' !! "CODE" = Some (VCode c).
Proof.
  intros e o e' Hc Hrun. destruct r; simpl in Hrun;
    apply run_keeps_globals in Hrun; rewrite Hrun; exact Hc.
Qed.

(** Loading the module: on CPython the code is compiled and its listing
    printed, on GraalPython it is unmarshalled and nothing is printed. *)
Lemma load_ok (r : runtime) :
  module_body (H := host_of r) initial_world = (inr tt, loaded r)
  /\ globals (loaded r) !! "CODE" = Some (VCode sample_code)
  /\ globals (loaded r) !! "len" = None
  /\ exec_log (loaded r) = []
  /\ stdout (loaded r)
     = match r with CPython => [py_dis sample_code] | GraalPython => [] end.
Proof. destruct r; vm_compute; repeat split. Qed.

Lemma loaded_builtins (r : runtime) :
  globals (loaded r) !! "range" = None /\ globals (loaded r) !! "exec" = None.
Proof. destruct r; vm_compute; split; reflexivity. Qed.

Lemma loaded_ready (r : runtime) : ready bench_inv (loaded r).
Proof.
  destruct (load_ok r) as (_ & Hc & Hg & _).
  exists ∅. split; [|exact (loaded_builtins r)].
  split; [exact Hc|]. split; [exact Hg | apply lookup_empty].
Qed.

Lemma after_calls_ready (r : runtime) (args : list (option Z)) :
  forall w, ready bench_inv w -> ready bench_inv (after_calls r args w).
Proof.
  induction args as [|a args IH]; intros w Hr; simpl; [exact Hr|].
  apply IH. rewrite benchmark_measure.
  destruct (measure_safe (H := host_of r) sample_code (default 5 a) bench_inv
              w (sample_runs_safely r _) Hr) as (ef & _ & Hm & HI).
  rewrite Hm. apply ready_world_after. exact HI.
Qed.

(** C7. On both runtimes the module loads, binding [CODE] to the code
    object of the benchmarked source (the shorter source of the
    end-to-end scenario gives the same object); running that object never
    raises where nothing shadows [len]; [measure 5] right after loading
    returns [None] after five runs; and so does every [__benchmark__] call
    after any series of earlier calls. *)
Theorem sample_source_never_raises (r : runtime) :
  exists (c : code_object) (w0 : world),
    module_body (H := host_of r) initial_world = (inr tt, w0)
    /\ globals w0 !! "CODE" = Some (VCode c)
    /\ fst (get_code (H := host_of r) "bench.py"
              ("import sys" ++ LF ++ "len(sys.__name__)")%string
              initial_world) = inr c
    /\ (forall e, sample_inv e -> fst (exec_code (Host := host_of r) c e) = None)
    /\ (exists w5,
          measure (H := host_of r) 5 w0 = (inr VNone, w5)
          /\ exec_log w5 = repeat c 5)
    /\ (forall (args : list (option Z)) (arg : option Z),
          exists w',
            __benchmark__ (H := host_of r) arg (after_calls r args w0)
              = (inr VNone, w')).
Proof.
  destruct (load_ok r) as (Hload & Hc & _ & Hlog & _).
  exists sample_code, (loaded r).
  split; [exact Hload|]. split; [exact Hc|].
  split; [destruct r; vm_compute; reflexivity|].
  split; [intros e He; destruct r; simpl; rewrite (sample_exec e He);
          reflexivity|].
  split.
  - destruct (measure_safe (H := host_of r) sample_code 5 bench_inv
                (loaded r) (sample_runs_safely r 5) (loaded_ready r))
      as (ef & _ & Hm & _).
    eexists. split; [exact Hm|]. simpl. rewrite Hlog. reflexivity.
  - intros args arg. rewrite benchmark_measure.
    destruct (measure_safe (H := host_of r) sample_code (default 5 arg)
                bench_inv (after_calls r args (loaded r))
                (sample_runs_safely r _)
                (after_calls_ready r args _ (loaded_ready r)))
      as (ef & _ & Hm & _).
    eexists. exact Hm.
Qed.

(** *** The theorems at the benchmarked source *)

Lemma measure_executes_num_times_witness :
  exists ef w',
    runs_in_sequence (H := host_of CPython) sample_code 3 (range 3)
      (entry 3 (loaded CPython)) = (None, ef, Z.to_nat 3)
    /\ measure (H := host_of CPython) 3 (loaded CPython) = (inr VNone, w')
    /\ w' = World (e_stdout ef) (e_globals ef)
              (exec_log (loaded CPython) ++ repeat sample_code (Z.to_nat 3))
    /\ Z.of_nat (length (exec_log w'))
       = Z.of_nat (length (exec_log (loaded CPython))) + 3
    /\ (3 = 0 -> w' = loaded CPython).
Proof.
  apply (measure_executes_num_times (H := host_of CPython)
           sample_code bench_inv 3 (loaded CPython)).
  - apply sample_runs_safely.
  - apply loaded_ready.
  - lia.
Defined.

Lemma benchmark_delegates_to_measure_witness :
  (exists ef,
     runs_in_sequence (H := host_of GraalPython) sample_code 5 (range 5)
       (entry 5 (loaded GraalPython)) = (None, ef, 5%nat)
     /\ __benchmark__ (H := host_of GraalPython) None (loaded GraalPython)
        = (inr VNone,
           World (e_stdout ef) (e_globals ef)
             (exec_log (loaded GraalPython) ++ repeat sample_code 5)))
  /\ (forall (num : Z) (w1 : world),
        __benchmark__ (H := host_of GraalPython) (Some num) w1
          = measure (H := host_of GraalPython) num w1)
  /\ (forall w1 : world,
        __benchmark__ (H := host_of GraalPython) None w1
          = measure (H := host_of GraalPython) 5 w1).
Proof.
  apply (benchmark_delegates_to_measure (H := host_of GraalPython)
           sample_code bench_inv (loaded GraalPython)).
  - apply sample_runs_safely.
  - apply loaded_ready.
Defined.

Lemma get_code_invalid_source_witness :
  get_code (H := host_of CPython) "bench.py" "def :" initial_world
    = (inl SyntaxError, initial_world).
Proof.
  apply (get_code_invalid_source (H := host_of CPython)
           "bench.py" "def :" SyntaxError initial_world).
  - reflexivity.
  - vm_compute. reflexivity.
Defined.


Lemma get_code_graal_unmarshals_witness :
  get_code (H := host_of GraalPython) "bench.py" bench_source initial_world
    = (py_marshal_loads (marshal_dumps sample_code), initial_world)
  /\ (forall e,
        py_marshal_loads (marshal_dumps sample_code) = inl e ->
        get_code (H := host_of GraalPython) "bench.py" bench_source
          initial_world = (inl e, initial_world))
  /\ (forall c,
        py_marshal_loads (marshal_dumps sample_code) = inr c ->
        get_code (H := host_of GraalPython) "bench.py" bench_source
          initial_world = (inr c, initial_world)).
Proof.
  apply (get_code_graal_unmarshals (H := host_of GraalPython)
           "bench.py" bench_source (marshal_dumps sample_code) initial_world).
  - reflexivity.
  - vm_compute. reflexivity.
Defined.

Lemma measure_twice_same_count_witness :
  exists e1 e2 w1 w2,
    runs_in_sequence (H := host_of CPython) sample_code 2 (range 2)
      (entry 2 (loaded CPython)) = (None, e1, Z.to_nat 2)
    /\ measure (H := host_of CPython) 2 (loaded CPython) = (inr VNone, w1)
    /\ w1 = World (e_stdout e1) (e_globals e1)
              (exec_log (loaded CPython) ++ repeat sample_code (Z.to_nat 2))
    /\ runs_in_sequence (H := host_of CPython) sample_code 2 (range 2) (entry 2 w1)
       = (None, e2, Z.to_nat 2)
    /\ measure (H := host_of CPython) 2 w1 = (inr VNone, w2)
    /\ w2 = World (e_stdout e2) (e_globals e2)
              (exec_log w1 ++ repeat sample_code (Z.to_nat 2))
    /\ exec_log w1
       = exec_log (loaded CPython) ++ repeat sample_code (Z.to_nat 2)
    /\ exec_log w2 = exec_log w1 ++ repeat sample_code (Z.to_nat 2).
Proof.
  apply (measure_twice_same_count (H := host_of CPython)
           sample_code bench_inv 2 (loaded CPython)).
  - apply sample_runs_safely.
  - apply loaded_ready.
Defined.

Lemma CODE_is_never_modified_witness :
  (forall r w',
     measure (H := host_of GraalPython) 4 (loaded GraalPython) = (r, w') ->
     globals w' !! "CODE" = Some (VCode sample_code)
     /\ exists k,
          exec_log w' = exec_log (loaded GraalPython) ++ repeat sample_code k)
  /\ (forall r w',
        __benchmark__ (H := host_of GraalPython) None (loaded GraalPython)
          = (r, w') ->
        globals w' !! "CODE" = Some (VCode sample_code)
        /\ exists k,
             exec_log w'
               = exec_log (loaded GraalPython) ++ repeat sample_code k).
Proof.
  apply (CODE_is_never_modified (H := host_of GraalPython)
           sample_code None 4 (loaded GraalPython)).
  - apply exec_keeps_CODE.
  - apply load_ok.
Defined.

Lemma measure_negative_witness :
  -1 < 0
  /\ range (-1) = []
  /\ measure (H := host_of CPython) (-1) (loaded CPython)
     = (inr VNone, loaded CPython).
Proof.
  split; [lia|].
  apply (measure_negative (H := host_of CPython) (-1) (loaded CPython)). lia.
Defined.

End Sample.

(** ** Further properties of the script, over any host *)

Section Further.
Context {code : Type} `{H : Host code}.





Lemma range_pos (num : Z) : 0 < num -> range num = 0 :: seqZ 1 (num - 1).
Proof. intros Hn. unfold range. rewrite seqZ_cons by lia. reflexivity. Qed.

(** X2. When the first run of the stored object raises, [measure] raises
    that same exception at once: exactly one run is recorded, what the
    run printed or wrote to the globals before raising stays, and no
    further iteration is made. *)
Theorem measure_first_run_raises
  (c : code) (num : Z) (w : world) (x : exn) (e' : env code) :
  globals w !! "CODE" = Some (VCode c) ->
  0 < num ->
  exec_code c
    (Env (globals w) (<["i" := VInt 0]> {["num" := VInt num]}) (stdout w))
    = (Some x, e') ->
  measure num w
    = (inl x, World (e_stdout e') (e_globals e') (exec_log w ++ [c])).
Proof.
  intros Hc Hn He. rewrite measure_unfold, (range_pos num Hn).
  rewrite for_each_cons, (measure_body_run c) by exact Hc.
  rewrite insert_singleton_eq. unfold run_code. rewrite He. reflexivity.
Qed.

(** X3. With [CODE] bound neither in the module globals nor in the
    builtins, [measure num] for [num > 0] raises [NameError] before any
    run and leaves the world as it was. *)
Theorem measure_CODE_unbound (num : Z) (w : world) :
  globals w !! "CODE" = None ->
  builtins !! "CODE" = None ->
  0 < num ->
  measure num w = (inl NameError, w).
Proof.
  intros Hg Hb Hn. rewrite measure_unfold, (range_pos num Hn).
  rewrite for_each_cons. unfold measure_body, bind, load_global.
  rewrite Hg, Hb. reflexivity.
Qed.

(** [measure] under an invariant, when the runs it makes of the stored
    object only write the local namespace: the world changes in its log
    only. *)
Lemma measure_safe_frame
  (c : code) (Inv : env code -> Prop) (num : Z) (w : world) :
  runs_safely c num Inv ->
  (forall e i e',
     0 <= i < num ->
     Inv e -> exec_at c num i e = (None, e') ->
     e_globals e' = e_globals e /\ e_stdout e' = e_stdout e) ->
  ready Inv w ->
  measure num w
    = (inr VNone,
       World (stdout w) (globals w) (exec_log w ++ repeat c (Z.to_nat num)))
  /\ ready Inv
       (World (stdout w) (globals w) (exec_log w ++ repeat c (Z.to_nat num))).
Proof.
  intros Hs Hf [l0 HI0].
  set (Inv' := fun e => Inv e /\ e_globals e = globals w
                        /\ e_stdout e = stdout w).
  assert (Hs' : runs_safely c num Inv').
  { split.
    - intros e (HI & _). exact (safe_code _ _ _ Hs e HI).
    - intros e (HI & _). exact (safe_builtins _ _ _ Hs e HI).
    - intros e (HI & Hg & Ho). split; [exact (safe_enter _ _ _ Hs e HI)|].
      simpl. auto.
    - intros e i Hi (HI & Hg & Ho).
      destruct (safe_exec _ _ _ Hs e i Hi HI) as (e' & He & HI').
      destruct (Hf e i e' Hi HI He) as (Hg' & Ho').
      exists e'. split; [exact He|]. split; [exact HI'|].
      split; congruence. }
  assert (Hr' : ready Inv' w).
  { exists l0. split; [exact HI0|]. simpl. auto. }
  destruct (measure_safe c num Inv' w Hs' Hr')
    as (ef & _ & Hm & (HIf & Hg & Ho)).
  unfold world_after in Hm. rewrite Hg, Ho in Hm.
  split; [exact Hm|]. exists (e_locals ef).
  simpl. rewrite <- Hg, <- Ho. destruct ef; exact HIf.
Qed.

(** X4. When the stored object runs safely in [measure num] and the runs
    write nothing but their local namespace, [measure num] leaves
    standard output and the module globals exactly as they were: the only
    trace of the call is the [Z.to_nat num] runs in the log (the frame's
    locals are dropped). *)
Theorem measure_changes_only_log
  (c : code) (Inv : env code -> Prop) (num : Z) (w : world) :
  runs_safely c num Inv ->
  (forall e i e',
     0 <= i < num ->
     Inv e -> exec_at c num i e = (None, e') ->
     e_globals e' = e_globals e /\ e_stdout e' = e_stdout e) ->
  ready Inv w ->
  measure num w
    = (inr VNone,
       World (stdout w) (globals w) (exec_log w ++ repeat c (Z.to_nat num))).
Proof.
  intros Hs Hf Hr. apply (measure_safe_frame c Inv num w Hs Hf Hr).
Qed.

(** X5. When that holds of every [num] (the stored object runs safely
    and writes only its local namespace, whatever [num] and [i] it
    sees), [measure a] followed by [measure b] ends with the result and
    in the world of a single [measure (a + b)], for non-negative [a] and
    [b]. *)
Theorem measure_additive
  (c : code) (Inv : env code -> Prop) (a b : Z) (w : world) :
  (forall num, runs_safely c num Inv) ->
  (forall num e i e',
     0 <= i < num ->
     Inv e -> exec_at c num i e = (None, e') ->
     e_globals e' = e_globals e /\ e_stdout e' = e_stdout e) ->
  ready Inv w ->
  0 <= a ->
  0 <= b ->
  exists w1,
    measure a w = (inr VNone, w1)
    /\ measure b w1 = measure (a + b) w.
Proof.
  intros Hs Hf Hr Ha Hb.
  destruct (measure_safe_frame c Inv a w (Hs a) (Hf a) Hr) as (Hm1 & Hr1).
  eexists. split; [exact Hm1|].
  destruct (measure_safe_frame c Inv b _ (Hs b) (Hf b) Hr1) as (Hm2 & _).
  destruct (measure_safe_frame c Inv (a + b) w (Hs _) (Hf _) Hr) as (Hm3 & _).
  rewrite Hm2, Hm3. simpl.
  rewrite Z2Nat.inj_add by lia. rewrite repeat_app, app_assoc. reflexivity.
Qed.

(** The two outcomes of [get_code]: it raises and leaves the world, or
    it returns a code object and at most prints its listing. *)
Lemma get_code_cases (n s : string) :
  (exists e, forall w, get_code n s w = (inl e, w))
  \/ (exists c, forall w,
        get_code n s w
          = (inr c,
             World (if IS_GRAAL then stdout w else stdout w ++ [dis_dis c])
               (globals w) (exec_log w))).
Proof.
  unfold get_code. destruct IS_GRAAL.
  - unfold get_code_graal, bind, lift.
    destruct (compile_cpyc n s) as [e|blob]; [left; exists e; reflexivity|].
    destruct (marshal_loads blob) as [e|c] eqn:Hl.
    + left. exists e. intros w. simpl. rewrite Hl. reflexivity.
    + right. exists c. intros [o g l]. simpl. rewrite Hl. reflexivity.
  - unfold get_code_cpython, bind, lift.
    destruct (compile s n "exec") as [e|c].
    + left. exists e. reflexivity.
    + right. exists c. reflexivity.
Qed.

(** The names the module body binds. *)
Lemma module_body_globals (c : code) (g : gmap string (value code)) :
  let g' :=
    <["__benchmark__" := VFunction "__benchmark__"]>
      (<["measure" := VFunction "measure"]>
         (<["CODE" := VCode c]>
            (<["get_code" :=
                 VFunction (if IS_GRAAL then "<lambda>" else "get_code")]>
               (<["IS_GRAAL" := VBool IS_GRAAL]>
                  (<["marshal" := VModule "marshal"]>
                     (<["sys" := VModule "sys"]> g)))))) in
  g' !! "CODE" = Some (VCode c)
  /\ g' !! "IS_GRAAL" = Some (VBool IS_GRAAL)
  /\ g' !! "measure" = Some (VFunction "measure")
  /\ g' !! "__benchmark__" = Some (VFunction "__benchmark__")
  /\ dom g'
     = dom g ∪ {[ "sys"; "marshal"; "IS_GRAAL"; "get_code"; "CODE";
                  "measure"; "__benchmark__" ]}.
Proof.
  intros g'. subst g'.
  split; [by simplify_map_eq|]. split; [by simplify_map_eq|].
  split; [by simplify_map_eq|]. split; [by simplify_map_eq|].
  rewrite !dom_insert_L. apply set_eq. intros x.
  rewrite !elem_of_union, !elem_of_singleton. tauto.
Qed.

(** X7. When [get_code] raises on the benchmarked source, loading the
    module raises the same exception; nothing is printed or run, and the
    names [CODE], [measure] and [__benchmark__] are not bound by the
    load: there is no entry point to call. *)
Theorem module_body_load_fails (e : exn) (w : world) :
  fst (get_code "bench.py" bench_source w) = inl e ->
  exists w',
    module_body w = (inl e, w')
    /\ stdout w' = stdout w
    /\ exec_log w' = exec_log w
    /\ globals w' !! "CODE" = globals w !! "CODE"
    /\ globals w' !! "measure" = globals w !! "measure"
    /\ globals w' !! "__benchmark__" = globals w !! "__benchmark__".
Proof.
  intros He.
  destruct (get_code_cases "bench.py" bench_source) as [(e0 & Hget)|(c & Hget)];
    rewrite Hget in He; simpl in He; [|discriminate].
  injection He as ->.
  eexists. split.
  - unfold module_body, bind, store_global. rewrite Hget. reflexivity.
  - simpl. repeat split; by simplify_map_eq.
Qed.

(** X8. When [get_code] returns [c] for the benchmarked source, loading
    the module succeeds without running anything: [CODE] is bound to [c],
    the module binds its seven names and no other, and standard output
    gets the listing of [c] on the fallback path and nothing under
    GraalPython. *)
Theorem module_body_load_succeeds (c : code) (w : world) :
  fst (get_code "bench.py" bench_source w) = inr c ->
  exists w',
    module_body w = (inr tt, w')
    /\ exec_log w' = exec_log w
    /\ stdout w' = (if IS_GRAAL then stdout w else stdout w ++ [dis_dis c])
    /\ globals w' !! "CODE" = Some (VCode c)
    /\ globals w' !! "IS_GRAAL" = Some (VBool IS_GRAAL)
    /\ globals w' !! "measure" = Some (VFunction "measure")
    /\ globals w' !! "__benchmark__" = Some (VFunction "__benchmark__")
    /\ dom (globals w')
       = dom (globals w) ∪ {[ "sys"; "marshal"; "IS_GRAAL"; "get_code"; "CODE";
                              "measure"; "__benchmark__" ]}.
Proof.
  intros Hc.
  destruct (get_code_cases "bench.py" bench_source) as [(e0 & Hget)|(c0 & Hget)];
    rewrite Hget in Hc; simpl in Hc; [discriminate|].
  injection Hc as ->.
  eexists. split.
  - unfold module_body, bind, store_global. rewrite Hget. reflexivity.
  - simpl. split; [reflexivity|]. split; [reflexivity|].
    apply module_body_globals.
Qed.

End Further.

(** ** The further properties at the benchmarked source *)

Section FurtherSample.

(** The runs [measure] makes of the benchmarked source write the local
    namespace only. *)
Lemma sample_exec_frame (r : runtime) :
  forall num e i e',
    0 <= i < num ->
    bench_inv e ->
    exec_at (H := host_of r) sample_code num i e = (None, e') ->
    e_globals e' = e_globals e /\ e_stdout e' = e_stdout e.
Proof.
  intros num e i e' _ (HI & _) He.
  rewrite (sample_exec_at r num i e HI) in He. injection He as <-. auto.
Qed.

(** Every run sees the frame's own [num], whatever the run before stored
    under that name; other names the runs store are kept.  On
    [probe_host], [measure 3] therefore raises at its second run, and
    [measure 2] prints [2] twice. *)
Example measure_resyncs_num :
  measure (H := probe_host) 3 (World [] {["CODE" := VCode sample_code]} [])
    = (inl ValueError,
       World ["3"] {["CODE" := VCode sample_code]} [sample_code; sample_code])
  /\ measure (H := probe_host) 2 (World [] {["CODE" := VCode sample_code]} [])
     = (inr VNone,
        World ["2"; "2"] {["CODE" := VCode sample_code]}
          [sample_code; sample_code]).
Proof. split; vm_compute; reflexivity. Qed.



Lemma measure_first_run_raises_witness :
  measure (H := host_of CPython) 3
    (World [] {["CODE" := VCode raising_code]} [])
  = (inl NameError,
     World [] {["CODE" := VCode raising_code]} [raising_code]).
Proof.
  refine (measure_first_run_raises (H := host_of CPython) raising_code 3
            (World [] {["CODE" := VCode raising_code]} []) NameError
            (Env {["CODE" := VCode raising_code]}
                 (<["i" := VInt 0]> {["num" := VInt 3]}) []) _ _ _).
  - reflexivity.
  - lia.
  - vm_compute. reflexivity.
Defined.

Lemma measure_CODE_unbound_witness :
  measure (H := host_of CPython) 1 initial_world
    = (inl NameError, initial_world).
Proof.
  apply (measure_CODE_unbound (H := host_of CPython) 1 initial_world).
  - reflexivity.
  - reflexivity.
  - lia.
Defined.

Lemma measure_changes_only_log_witness :
  measure (H := host_of CPython) 4 (loaded CPython)
    = (inr VNone,
       World (stdout (loaded CPython)) (globals (loaded CPython))
         (exec_log (loaded CPython) ++ repeat sample_code (Z.to_nat 4))).
Proof.
  apply (measure_changes_only_log (H := host_of CPython)
           sample_code bench_inv 4 (loaded CPython)).
  - apply sample_runs_safely.
  - apply sample_exec_frame.
  - apply loaded_ready.
Defined.

Lemma measure_additive_witness :
  exists w1,
    measure (H := host_of GraalPython) 2 (loaded GraalPython) = (inr VNone, w1)
    /\ measure (H := host_of GraalPython) 3 w1
       = measure (H := host_of GraalPython) (2 + 3) (loaded GraalPython).
Proof.
  apply (measure_additive (H := host_of GraalPython)
           sample_code bench_inv 2 3 (loaded GraalPython)).
  - apply sample_runs_safely.
  - apply sample_exec_frame.
  - apply loaded_ready.
  - lia.
  - lia.
Defined.


Lemma module_body_load_fails_witness :
  exists w',
    module_body (H := stale_graalpython) initial_world = (inl ValueError, w')
    /\ stdout w' = stdout (@initial_world code_object)
    /\ exec_log w' = exec_log (@initial_world code_object)
    /\ globals w' !! "CODE" = globals (@initial_world code_object) !! "CODE"
    /\ globals w' !! "measure"
       = globals (@initial_world code_object) !! "measure"
    /\ globals w' !! "__benchmark__"
       = globals (@initial_world code_object) !! "__benchmark__".
Proof.
  apply (module_body_load_fails (H := stale_graalpython)
           ValueError initial_world).
  vm_compute. reflexivity.
Defined.

Lemma module_body_load_succeeds_witness :
  exists w',
    module_body (H := host_of CPython) initial_world = (inr tt, w')
    /\ exec_log w' = exec_log (@initial_world code_object)
    /\ stdout w'
       = (if IS_GRAAL (H := host_of CPython)
          then stdout (@initial_world code_object)
          else stdout (@initial_world code_object) ++ [py_dis sample_code])
    /\ globals w' !! "CODE" = Some (VCode sample_code)
    /\ globals w' !! "IS_GRAAL" = Some (VBool (IS_GRAAL (H := host_of CPython)))
    /\ globals w' !! "measure" = Some (VFunction "measure")
    /\ globals w' !! "__benchmark__" = Some (VFunction "__benchmark__")
    /\ dom (globals w')
       = dom (globals (@initial_world code_object))
           ∪ {[ "sys"; "marshal"; "IS_GRAAL"; "get_code"; "CODE";
                "measure"; "__benchmark__" ]}.
Proof.
  apply (module_body_load_succeeds (H := host_of CPython)
           sample_code initial_world).
  vm_compute. reflexivity.
Defined.

End FurtherSample.
